(** * express-server: the two route tables and their dispatch

    The repository holds two variants of one script: [src/app.js]
    (routes [/], [/intro], [/about]) and [src/unnamed/part_001]
    (routes [/], [/intro], [/section]).  Each script creates an Express
    application, registers three GET routes whose handlers call
    [res.send] on a string literal, and calls [app.listen(PORT, cb)].

    The scripts are embedded in [AppJs] and [Part001].  What they call
    is embedded in [Node] (methods, console, the listening server) and
    [Express] (route layers, the router's dispatch loop, [res.send]
    with its entity tag and freshness check, the final handler);
    [Crypto] holds the digest the entity tag is made of.  Express is a
    dependency of the repository and the scripts do not pin its major
    release, so the embedding carries the release as a parameter
    ([Express.release]) wherever releases 4 and 5 behave differently.

    A request is its method, its pathname and its headers.  The
    headers Node itself adds when it writes a response ([Date],
    [Connection]) are not part of a response here. *)

From Stdlib Require Import Strings.String Strings.Ascii Lists.List.
From Stdlib Require Import NArith Bool Arith Lia.
From Stdlib Require Import Numbers.DecimalString Numbers.HexadecimalString.
Import ListNotations.
Open Scope string_scope.

(** ** Strings as JavaScript uses them here *)

Module Js.

(** [Number.prototype.toString] on a non-negative integer, as the
    template literal [`${PORT}`] applies it. *)
Definition toString (n : N) : string :=
  DecimalString.NilZero.string_of_uint (N.to_uint n).

(** [String.prototype.includes]. *)
Fixpoint includes (needle hay : string) : bool :=
  prefix needle hay ||
  match hay with
  | EmptyString => false
  | String _ rest => includes needle rest
  end.

(** Case folding of one character by a regular expression with the
    [i] flag and without the [u] flag: a character is compared by its
    upper-case form, and a character outside ASCII never folds to an
    ASCII one.  On bytes this is upper-casing of [a]..[z]. *)
Definition canonicalize (c : ascii) : ascii :=
  let n := nat_of_ascii c in
  if (97 <=? n)%nat && (n <=? 122)%nat then ascii_of_nat (n - 32) else c.

Definition char_eqb (sensitive : bool) (c d : ascii) : bool :=
  if sensitive then Ascii.eqb c d
  else Ascii.eqb (canonicalize c) (canonicalize d).

(** Match of a literal pattern against the whole input, character by
    character. *)
Fixpoint literal_eqb (sensitive : bool) (pat input : string) : bool :=
  match pat, input with
  | EmptyString, EmptyString => true
  | String c pat', String d input' =>
      char_eqb sensitive c d && literal_eqb sensitive pat' input'
  | _, _ => false
  end.

Fixpoint ends_with_slash (s : string) : bool :=
  match s with
  | EmptyString => false
  | String c rest =>
      match rest with
      | EmptyString => Ascii.eqb c "/"
      | String _ _ => ends_with_slash rest
      end
  end.

(** [s.slice(0, -1)]. *)
Fixpoint drop_last (s : string) : string :=
  match s with
  | EmptyString => EmptyString
  | String c rest =>
      match rest with
      | EmptyString => EmptyString
      | String _ _ => String c (drop_last rest)
      end
  end.

(** [s.replace(/\/+$/, '')]. *)
Fixpoint strip_trailing_slashes (s : string) : string :=
  match s with
  | EmptyString => EmptyString
  | String c rest =>
      let rest' := strip_trailing_slashes rest in
      if String.eqb rest' "" && Ascii.eqb c "/" then "" else String c rest'
  end.

(** [xs.join(sep)]. *)
Fixpoint join (sep : string) (xs : list string) : string :=
  match xs with
  | [] => ""
  | [x] => x
  | x :: rest => x ++ sep ++ join sep rest
  end.

(** [xs.sort()] on strings (code-unit order), by insertion. *)
Fixpoint insert_sorted (x : string) (xs : list string) : list string :=
  match xs with
  | [] => [x]
  | y :: rest => if String.leb x y then x :: xs else y :: insert_sorted x rest
  end.

Definition sort (xs : list string) : list string :=
  fold_right insert_sorted [] xs.

(** The double quote character. *)
Definition dquote : string := String (ascii_of_nat 34) "".

(** [n.toString(16)]. *)
Definition toString16 (n : N) : string :=
  HexadecimalString.NilZero.string_of_uint (N.to_hex_uint n).

(** A string with its ASCII letters in upper case. *)
Fixpoint upper (s : string) : string :=
  match s with
  | EmptyString => EmptyString
  | String c rest => String (canonicalize c) (upper rest)
  end.

(** A string as the bytes of its UTF-8 encoding ([Buffer.from(s,
    'utf8')]); a character of a string is a code point below 256. *)
Fixpoint utf8 (s : string) : list N :=
  match s with
  | EmptyString => []
  | String c rest =>
      let n := N_of_ascii c in
      if (n <? 128)%N then n :: utf8 rest
      else (192 + n / 64)%N :: (128 + n mod 64)%N :: utf8 rest
  end.

(** [Buffer.byteLength(s, 'utf8')]. *)
Definition byteLength (s : string) : N := N.of_nat (List.length (utf8 s)).

(** White space as the class [\s] of a regular expression sees it,
    among code points below 256. *)
Definition is_space (c : ascii) : bool :=
  let n := nat_of_ascii c in
  ((9 <=? n)%nat && (n <=? 13)%nat) || (n =? 32)%nat || (n =? 160)%nat.

Fixpoint trim_start (s : string) : string :=
  match s with
  | EmptyString => EmptyString
  | String c rest => if is_space c then trim_start rest else s
  end.

Fixpoint trim_end (s : string) : string :=
  match s with
  | EmptyString => EmptyString
  | String c rest =>
      let rest' := trim_end rest in
      if String.eqb rest' "" && is_space c then "" else String c rest'
  end.

(** [s.split(',')]. *)
Fixpoint split_commas (s : string) : list string :=
  match s with
  | EmptyString => [""]
  | String c rest =>
      if Ascii.eqb c ","
      then "" :: split_commas rest
      else match split_commas rest with
           | [] => [String c ""]
           | piece :: pieces => String c piece :: pieces
           end
  end.

End Js.

(** ** The digest of the entity tag *)

Module Crypto.

Definition w32 (x : N) : N := N.land x 0xFFFFFFFF.

Definition rotl (n x : N) : N :=
  w32 (N.lor (N.shiftl x n) (N.shiftr x (32 - n))).

Definition add32 (x y : N) : N := w32 (x + y).

(** [x] as [width] bytes, most significant first. *)
Definition be_bytes (width : nat) (x : N) : list N :=
  map (fun i => N.land (N.shiftr x (8 * N.of_nat i)) 255) (rev (seq 0 width)).

(** SHA-1 padding: a one bit, zeros up to 56 modulo 64 bytes, and the
    length in bits as 8 bytes. *)
Definition pad (msg : list N) : list N :=
  let len := length msg in
  let k := ((64 - ((len + 9) mod 64)) mod 64)%nat in
  (msg ++ [128%N] ++ repeat 0%N k ++ be_bytes 8 (8 * N.of_nat len))%list.

Fixpoint words (n : nat) (bs : list N) : list N :=
  match n with
  | O => []
  | S n' =>
      match bs with
      | a :: b :: c :: d :: rest =>
          (a * 16777216 + b * 65536 + c * 256 + d)%N :: words n' rest
      | _ => []
      end
  end.

(** The message schedule, latest word first. *)
Fixpoint schedule (n : nat) (rev_w : list N) : list N :=
  match n with
  | O => rev_w
  | S n' =>
      let w := rotl 1 (N.lxor (N.lxor (nth 2 rev_w 0%N) (nth 7 rev_w 0%N))
                              (N.lxor (nth 13 rev_w 0%N) (nth 15 rev_w 0%N))) in
      schedule n' (w :: rev_w)
  end.

Definition state : Type := (N * N * N * N * N)%type.

Definition round (st : state) (tw : nat * N) : state :=
  let '(a, b, c, d, e) := st in
  let '(t, w) := tw in
  let '(f, k) :=
    if (t <? 20)%nat then
      (N.lor (N.land b c) (N.land (N.lxor b 0xFFFFFFFF) d), 0x5A827999%N)
    else if (t <? 40)%nat then
      (N.lxor (N.lxor b c) d, 0x6ED9EBA1%N)
    else if (t <? 60)%nat then
      (N.lor (N.lor (N.land b c) (N.land b d)) (N.land c d), 0x8F1BBCDC%N)
    else
      (N.lxor (N.lxor b c) d, 0xCA62C1D6%N) in
  (add32 (add32 (add32 (add32 (rotl 5 a) f) e) k) w, a, rotl 30 b, c, d).

Definition compress (h : state) (block : list N) : state :=
  let w := rev (schedule 64 (rev (words 16 block))) in
  let '(a, b, c, d, e) := fold_left round (combine (seq 0 80) w) h in
  let '(h0, h1, h2, h3, h4) := h in
  (add32 h0 a, add32 h1 b, add32 h2 c, add32 h3 d, add32 h4 e).

Fixpoint blocks (n : nat) (bs : list N) : list (list N) :=
  match n with
  | O => []
  | S n' => firstn 64 bs :: blocks n' (skipn 64 bs)
  end.

(** The SHA-1 digest of a byte string, as 20 bytes. *)
Definition sha1 (msg : list N) : list N :=
  let padded := pad msg in
  let '(h0, h1, h2, h3, h4) :=
    fold_left compress (blocks (length padded / 64) padded)
      (0x67452301, 0xEFCDAB89, 0x98BADCFE, 0x10325476, 0xC3D2E1F0)%N in
  (be_bytes 4 h0 ++ be_bytes 4 h1 ++ be_bytes 4 h2 ++ be_bytes 4 h3
   ++ be_bytes 4 h4)%list.

Definition base64_alphabet : string :=
  "ABCDEFGHIJKLMNOPQRSTUVWXYZabcdefghijklmnopqrstuvwxyz0123456789+/".

Definition base64_char (n : N) : string :=
  match get (N.to_nat n) base64_alphabet with
  | Some c => String c ""
  | None => ""
  end.

(** [buf.toString('base64')]. *)
Fixpoint base64 (bs : list N) : string :=
  match bs with
  | [] => ""
  | [a] =>
      base64_char (a / 4) ++ base64_char ((a mod 4) * 16) ++ "=="
  | [a; b] =>
      base64_char (a / 4) ++ base64_char ((a mod 4) * 16 + b / 16)
      ++ base64_char ((b mod 16) * 4) ++ "="
  | a :: b :: c :: rest =>
      base64_char (a / 4) ++ base64_char ((a mod 4) * 16 + b / 16)
      ++ base64_char ((b mod 16) * 4 + c / 64) ++ base64_char (c mod 64)
      ++ base64 rest
  end.

End Crypto.

(** ** Node: methods, console, listening server *)

Module Node.

(** The request methods Node's HTTP parser accepts ([http.METHODS],
    with [QUERY] of the newer releases); a request line with any other
    method is rejected before the application sees it. *)
Inductive method : Set :=
| ACL | BIND | CHECKOUT | CONNECT | COPY | DELETE | GET | HEAD | LINK
| LOCK | M_SEARCH | MERGE | MKACTIVITY | MKCALENDAR | MKCOL | MOVE
| NOTIFY | OPTIONS | PATCH | POST | PROPFIND | PROPPATCH | PURGE | PUT
| REBIND | REPORT | SEARCH | SOURCE | SUBSCRIBE | TRACE | UNBIND
| UNLINK | UNLOCK | UNSUBSCRIBE | QUERY.

(** [req.method]. *)
Definition method_name (m : method) : string :=
  match m with
  | ACL => "ACL" | BIND => "BIND" | CHECKOUT => "CHECKOUT"
  | CONNECT => "CONNECT" | COPY => "COPY" | DELETE => "DELETE"
  | GET => "GET" | HEAD => "HEAD" | LINK => "LINK" | LOCK => "LOCK"
  | M_SEARCH => "M-SEARCH" | MERGE => "MERGE"
  | MKACTIVITY => "MKACTIVITY" | MKCALENDAR => "MKCALENDAR"
  | MKCOL => "MKCOL" | MOVE => "MOVE" | NOTIFY => "NOTIFY"
  | OPTIONS => "OPTIONS" | PATCH => "PATCH" | POST => "POST"
  | PROPFIND => "PROPFIND" | PROPPATCH => "PROPPATCH"
  | PURGE => "PURGE" | PUT => "PUT" | REBIND => "REBIND"
  | REPORT => "REPORT" | SEARCH => "SEARCH" | SOURCE => "SOURCE"
  | SUBSCRIBE => "SUBSCRIBE" | TRACE => "TRACE" | UNBIND => "UNBIND"
  | UNLINK => "UNLINK" | UNLOCK => "UNLOCK"
  | UNSUBSCRIBE => "UNSUBSCRIBE" | QUERY => "QUERY"
  end.

Definition method_eqb (a b : method) : bool :=
  String.eqb (method_name a) (method_name b).

(** Whether the server emits ['request'] for a parsed request.  A
    CONNECT request is emitted as ['connect'] instead; the scripts
    register no listener for it, so the socket is destroyed and the
    client gets no response. *)
Definition emits_request (m : method) : bool :=
  negb (method_eqb m CONNECT).

(** [process.env]. *)
Definition environment := string -> option string.

(** Standard output, as the lines written so far. *)
Definition console := list string.

(** [console.log(line)]. *)
Definition console_log (line : string) (out : console) : console :=
  (out ++ [line])%list.

(** A listener registered on the server; the scripts' listeners only
    write to the console.  The argument is what the event passes:
    nothing for ['listening'], the error for ['error']. *)
Definition listener := option string -> console -> console.

(** The HTTP server between [listen] and the outcome of the bind:
    the port asked for and the listeners registered with [once]. *)
Record server : Type := mkServer {
  port : N;
  onceListening : list listener;
  onceError : list listener
}.

Definition createServer : server :=
  {| port := 0; onceListening := []; onceError := [] |}.

(** [server.once('error', f)]. *)
Definition once_error (f : listener) (s : server) : server :=
  {| port := port s;
     onceListening := onceListening s;
     onceError := (onceError s ++ [f])%list |}.

(** [server.listen(port, cb)]: the callback is registered with
    [once('listening', cb)], then the bind is attempted. *)
Definition server_listen (p : N) (cb : listener) (s : server) : server :=
  {| port := p;
     onceListening := (onceListening s ++ [cb])%list;
     onceError := onceError s |}.

(** What the operating system answers to the bind. *)
Inductive bind_outcome : Set :=
| Bound
| BindError (code : string).

(** The process as the claims observe it. *)
Record process : Type := mkProcess {
  stdout : console;
  listening : bool;
  uncaught : bool
}.

Definition started : process :=
  {| stdout := []; listening := false; uncaught := false |}.

(** [emitter.emit(name, arg)] on a list of listeners, in order of
    registration. *)
Definition emit (arg : option string) (fs : list listener)
    (out : console) : console :=
  fold_left (fun o f => f arg o) fs out.

(** The bind completes: ['listening'] is emitted on success and
    ['error'] on failure.  An ['error'] event without a listener is
    thrown as an uncaught exception. *)
Definition settle (o : bind_outcome) (s : server) (p : process) : process :=
  match o with
  | Bound =>
      {| stdout := emit None (onceListening s) (stdout p);
         listening := true;
         uncaught := uncaught p |}
  | BindError code =>
      match onceError s with
      | [] =>
          {| stdout := stdout p; listening := false; uncaught := true |}
      | fs =>
          {| stdout := emit (Some code) fs (stdout p);
             listening := false;
             uncaught := uncaught p |}
      end
  end.

End Node.
(** ** Express: routes, dispatch, [res.send], the final handler *)

Module Express.

(** The major release of the framework that [require('express')]
    resolves to. *)
Inductive release : Set :=
| Express4
| Express5.

(** [req]: the method, the pathname of the request target, and
    [req.headers], whose names Node has put in lower case. *)
Record request : Type := mkRequest {
  method : Node.method;
  path : string;
  req_headers : list (string * string)
}.

(** What is written as the response body: the bytes passed to
    [res.end], or the HTML page the final handler builds around
    [Cannot METHOD resource] (with the resource passed through
    [encodeUrl]); the page is not rendered here. *)
Inductive payload : Type :=
| Chunk (bytes : string)
| NotFoundDocument (m : Node.method) (resource : string).

(** The value of [Content-Length]: a number of bytes, or the length
    of a page that is not rendered. *)
Inductive content_length : Type :=
| Length (n : N)
| LengthOf (page : payload).

(** [res]: the status, the headers set through [res.setHeader]
    ([Content-Length] kept apart), and what was written. *)
Record response : Type := mkResponse {
  statusCode : N;
  headers : list (string * string);
  contentLength : option content_length;
  body : payload
}.

(** A new [http.ServerResponse]: status 200, no header, nothing
    written. *)
Definition ServerResponse : response :=
  {| statusCode := 200; headers := []; contentLength := None;
     body := Chunk "" |}.

(** [res.getHeader(name)]; header names compare without case. *)
Fixpoint getHeader (name : string) (hs : list (string * string))
    : option string :=
  match hs with
  | [] => None
  | (k, v) :: rest =>
      if Js.literal_eqb false name k then Some v else getHeader name rest
  end.

(** [res.setHeader(name, value)]. *)
Fixpoint setHeader (name value : string) (hs : list (string * string))
    : list (string * string) :=
  match hs with
  | [] => [(name, value)]
  | (k, v) :: rest =>
      if Js.literal_eqb false name k then (name, value) :: rest
      else (k, v) :: setHeader name value rest
  end.

(** [res.removeHeader(name)]. *)
Fixpoint removeHeader (name : string) (hs : list (string * string))
    : list (string * string) :=
  match hs with
  | [] => []
  | (k, v) :: rest =>
      if Js.literal_eqb false name k then removeHeader name rest
      else (k, v) :: removeHeader name rest
  end.

Definition set (name value : string) (res : response) : response :=
  {| statusCode := statusCode res;
     headers := setHeader name value (headers res);
     contentLength := contentLength res;
     body := body res |}.

Definition remove (name : string) (res : response) : response :=
  {| statusCode := statusCode res;
     headers := removeHeader name (headers res);
     contentLength := contentLength res;
     body := body res |}.

Definition setContentLength (len : option content_length) (res : response)
    : response :=
  {| statusCode := statusCode res;
     headers := headers res;
     contentLength := len;
     body := body res |}.

(** [res.status(code)]. *)
Definition status (code : N) (res : response) : response :=
  {| statusCode := code;
     headers := headers res;
     contentLength := contentLength res;
     body := body res |}.

(** [res.end(chunk)]. *)
Definition end_ (chunk : string) (res : response) : response :=
  {| statusCode := statusCode res;
     headers := headers res;
     contentLength := contentLength res;
     body := Chunk chunk |}.

(** The entity tag of the [etag] package: the length in hexadecimal
    and the first 27 characters of the base64 SHA-1 digest, in double
    quotes. *)
Definition entitytag (entity : string) : string :=
  Js.dquote ++ Js.toString16 (Js.byteLength entity) ++ "-"
  ++ substring 0 27 (Crypto.base64 (Crypto.sha1 (Js.utf8 entity)))
  ++ Js.dquote.

(** The ['etag fn'] that [express()] installs: a weak tag. *)
Definition generateETag (body : string) : string :=
  "W/" ++ entitytag body.

(** [req.headers[name]]. *)
Fixpoint lookup (name : string) (hs : list (string * string))
    : option string :=
  match hs with
  | [] => None
  | (k, v) :: rest => if String.eqb name k then Some v else lookup name rest
  end.

(** A header value that is present and not empty. *)
Definition truthy (v : option string) : bool :=
  match v with
  | Some s => negb (String.eqb s "")
  | None => false
  end.

(** A header value that is exactly [*]. *)
Definition is_star (v : option string) : bool :=
  match v with
  | Some s => String.eqb s "*"
  | None => false
  end.

(** [parseTokenList] of the [fresh] package: the pieces between
    commas, without the spaces around them. *)
Fixpoint parseTokenList_from (str rest : string) (i start end_ : nat)
    (acc : list string) : list string :=
  match rest with
  | EmptyString => (acc ++ [substring start (end_ - start) str])%list
  | String c rest' =>
      if Ascii.eqb c " " then
        if (start =? end_)%nat
        then parseTokenList_from str rest' (S i) (S i) (S i) acc
        else parseTokenList_from str rest' (S i) start end_ acc
      else if Ascii.eqb c "," then
        parseTokenList_from str rest' (S i) (S i) (S i)
          (acc ++ [substring start (end_ - start) str])%list
      else parseTokenList_from str rest' (S i) start (S i) acc
  end.

Definition parseTokenList (str : string) : list string :=
  parseTokenList_from str str 0 0 0 [].

(** The test of [Cache-Control] against
    [/(?:^|,)\s*?no-cache\s*?(?:,|$)/]: one of the pieces between
    commas is [no-cache] with white space around it at most. *)
Definition no_cache (cacheControl : string) : bool :=
  existsb (fun piece =>
             String.eqb (Js.trim_end (Js.trim_start piece)) "no-cache")
          (Js.split_commas cacheControl).

(** One tag of [If-None-Match] against the tag of the response. *)
Definition tag_matches (etag m : string) : bool :=
  String.eqb m etag || String.eqb m ("W/" ++ etag)
  || String.eqb ("W/" ++ m) etag.

(** [fresh(reqHeaders, { etag, 'last-modified': undefined })]: the
    responses here never carry [Last-Modified], so a request with
    [If-Modified-Since] finds them stale.  Release 4 uses [fresh]
    0.5.2, which tests [If-None-Match] and then [If-Modified-Since];
    release 5 uses [fresh] 2.0.0, where [If-None-Match] decides alone
    when it is present. *)
Definition fresh (rel : release) (reqHeaders : list (string * string))
    (etag : option string) : bool :=
  let modifiedSince := lookup "if-modified-since" reqHeaders in
  let noneMatch := lookup "if-none-match" reqHeaders in
  let cacheControl := lookup "cache-control" reqHeaders in
  let tags_match :=
    match etag, noneMatch with
    | Some e, Some nm =>
        negb (String.eqb e "") && existsb (tag_matches e) (parseTokenList nm)
    | _, _ => false
    end in
  if negb (truthy modifiedSince) && negb (truthy noneMatch) then false
  else if truthy cacheControl
          && match cacheControl with
             | Some cc => no_cache cc
             | None => false
             end then false
  else
    match rel with
    | Express4 =>
        (if truthy noneMatch && negb (is_star noneMatch)
         then tags_match else true)
        && negb (truthy modifiedSince)
    | Express5 =>
        if truthy noneMatch
        then is_star noneMatch || tags_match
        else false
    end.

(** [req.fresh]: only GET and HEAD, and only a response whose status
    is 2xx or 304, can be fresh. *)
Definition req_fresh (rel : release) (req : request) (res : response)
    : bool :=
  if Node.method_eqb (method req) Node.GET
     || Node.method_eqb (method req) Node.HEAD
  then
    if ((200 <=? statusCode res)%N && (statusCode res <? 300)%N)
       || (statusCode res =? 304)%N
    then fresh rel (req_headers req) (getHeader "ETag" (headers res))
    else false
  else false.

(** [res.send(chunk)] for a string.  When no [Content-Type] is set
    the type becomes [html], which [res.set] completes with the
    charset (a type set before is rewritten with the charset by
    [setCharset]; nothing here sets one before [res.send], and that
    rewriting is not modelled).  [Content-Length] is set, and the
    entity tag unless one is set already.  A fresh request turns the
    status into 304; a status of 204 or 304 loses the content headers
    and the body, a status of 205 the body.  A HEAD request gets the
    headers and no body. *)
Definition res_send (rel : release) (res : response) (req : request)
    (chunk : string) : response :=
  let res1 :=
    match getHeader "Content-Type" (headers res) with
    | None => set "Content-Type" "text/html; charset=utf-8" res
    | Some _ => res
    end in
  let generate := negb (truthy (getHeader "ETag" (headers res1))) in
  let res2 := setContentLength (Some (Length (Js.byteLength chunk))) res1 in
  let res3 := if generate then set "ETag" (generateETag chunk) res2
              else res2 in
  let res4 := if req_fresh rel req res3 then status 304 res3 else res3 in
  let stripped := ((statusCode res4 =? 204) || (statusCode res4 =? 304))%N in
  let res5 :=
    if stripped
    then remove "Transfer-Encoding"
           (setContentLength None (remove "Content-Type" res4))
    else res4 in
  let reset := (statusCode res5 =? 205)%N in
  let res6 :=
    if reset
    then remove "Transfer-Encoding" (setContentLength (Some (Length 0)) res5)
    else res5 in
  if Node.method_eqb (method req) Node.HEAD then end_ "" res6
  else end_ (if stripped || reset then "" else chunk) res6.

(** [app.locals]: what a handler can keep from one request to the
    next. *)
Definition locals := list (string * string).

(** A route handler [(req, res) => { ... }]; through [req.app] it
    reaches [app.locals]. *)
Definition handler := request -> response -> locals -> response * locals.

(** A handler that acts on [res] only. *)
Definition on_response (f : request -> response -> response) : handler :=
  fun req res loc => (f req res, loc).

(** A route and its layer in the router's stack: the path it was
    registered with, its [methods] and its handler. *)
Record layer : Type := mkLayer {
  layer_path : string;
  methods : list Node.method;
  handle : handler
}.

(** The two routing settings; [express()] leaves both disabled. *)
Record settings : Type := mkSettings {
  case_sensitive_routing : bool;
  strict_routing : bool
}.

Record application : Type := mkApplication {
  framework : release;
  config : settings;
  stack : list layer;
  app_locals : locals
}.

(** [express()]. *)
Definition express (rel : release) : application :=
  {| framework := rel;
     config := {| case_sensitive_routing := false;
                  strict_routing := false |};
     stack := [];
     app_locals := [] |}.

(** [app.get(path, handler)]: a new route for GET, appended to the
    stack. *)
Definition app_get (p : string) (h : handler) (app : application)
    : application :=
  {| framework := framework app;
     config := config app;
     stack := (stack app ++
               [{| layer_path := p; methods := [Node.GET]; handle := h |}])%list;
     app_locals := app_locals app |}.

(** [layer.match(path)] for a route path without parameters or
    wildcards (all that the scripts register).  The path is compiled
    to a regular expression anchored at both ends, with the [i] flag
    unless routing is case sensitive.  Without strict routing,
    release 4 makes a final slash optional ([/about/?], and [/?] for
    the root) and release 5 removes the final slashes of a path
    other than [/] and then allows one slash after it. *)
Definition pathRegexp (rel : release) (cfg : settings) (p input : string)
    : bool :=
  let eq := Js.literal_eqb (case_sensitive_routing cfg) in
  if strict_routing cfg then eq p input
  else
    match rel with
    | Express4 =>
        if Js.ends_with_slash p
        then eq p input || eq (Js.drop_last p) input
        else eq p input || eq (p ++ "/") input
    | Express5 =>
        let p' := if String.eqb p "/" then p
                  else Js.strip_trailing_slashes p in
        eq p' input || eq (p' ++ "/") input
    end.

Definition has_method (m : Node.method) (ms : list Node.method) : bool :=
  existsb (Node.method_eqb m) ms.

(** [route._handles_method(method)]: HEAD is answered by the GET
    handler of a route that has no HEAD handler. *)
Definition handles_method (ms : list Node.method) (m : Node.method) : bool :=
  let name :=
    if Node.method_eqb m Node.HEAD && negb (has_method Node.HEAD ms)
    then Node.GET else m in
  has_method name ms.

(** [route._options()]: the methods a route answers. *)
Definition route_options (ms : list Node.method) : list string :=
  map Node.method_name
      (ms ++ (if has_method Node.GET ms && negb (has_method Node.HEAD ms)
              then [Node.HEAD] else []))%list.

(** Adding method names to a list that holds each once. *)
Fixpoint appendMethods (acc names : list string) : list string :=
  match names with
  | [] => acc
  | n :: rest =>
      appendMethods
        (if existsb (String.eqb n) acc then acc else (acc ++ [n])%list) rest
  end.

(** How the router's loop ends: a route handler has answered, or the
    stack is exhausted (with the methods gathered for OPTIONS). *)
Inductive outcome : Type :=
| Handled (res : response) (loc : locals)
| Unhandled (options : list string).

(** [router.handle]'s [next()]: the first layer whose path matches
    and whose route handles the method is dispatched to; a matching
    route that does not handle the method is skipped, and for an
    OPTIONS request its methods are added to [options]. *)
Fixpoint next (rel : release) (cfg : settings) (layers : list layer)
    (req : request) (options : list string) (res : response)
    (loc : locals) : outcome :=
  match layers with
  | [] => Unhandled options
  | l :: rest =>
      if pathRegexp rel cfg (layer_path l) (path req) then
        if handles_method (methods l) (method req)
        then let (res', loc') := handle l req res loc in Handled res' loc'
        else
          next rel cfg rest req
               (if Node.method_eqb (method req) Node.OPTIONS
                then appendMethods options (route_options (methods l))
                else options)
               res loc
      else next rel cfg rest req options res loc
  end.

(** The automatic answer to OPTIONS.  Release 4 sets [Allow] and
    calls [res.send] on the comma-joined list; release 5 sorts the
    list, joins it with a comma and a space, and ends the response
    as [text/plain]. *)
Definition sendOptionsResponse (rel : release) (req : request)
    (options : list string) (res : response) : response :=
  match rel with
  | Express4 =>
      let allow := Js.join "," options in
      res_send rel (set "Allow" allow res) req allow
  | Express5 =>
      let allow := Js.join ", " (Js.sort options) in
      end_ allow
        (set "X-Content-Type-Options" "nosniff"
           (set "Content-Type" "text/plain"
              (setContentLength (Some (Length (Js.byteLength allow)))
                 (set "Allow" allow res))))
  end.

(** [finalhandler] without an error: status 404 and an HTML page
    naming the method and the resource, whose length becomes
    [Content-Length]; a HEAD request gets the headers and no body. *)
Definition finalhandler (req : request) (res : response) : response :=
  let page := NotFoundDocument (method req) (path req) in
  let res1 :=
    remove "Content-Range"
      (remove "Content-Language" (remove "Content-Encoding" res)) in
  let res2 :=
    set "Content-Type" "text/html; charset=utf-8"
      (set "X-Content-Type-Options" "nosniff"
         (set "Content-Security-Policy" "default-src 'none'" res1)) in
  {| statusCode := 404;
     headers := headers res2;
     contentLength := Some (LengthOf page);
     body := if Node.method_eqb (method req) Node.HEAD then Chunk ""
             else page |}.

(** The response as the router receives it: Express has set
    [X-Powered-By], which [express()] leaves enabled. *)
Definition initial : response :=
  set "X-Powered-By" "Express" ServerResponse.

(** [app.handle(req, res)]: the router runs on a new response; when
    no route answers, an OPTIONS request for which methods were
    gathered gets the automatic answer, and any other request goes
    to the final handler.  The application is returned with what the
    handler left in [app.locals]. *)
Definition app_handle (app : application) (req : request)
    : application * response :=
  match next (framework app) (config app) (stack app) req []
             initial (app_locals app) with
  | Handled res loc =>
      ({| framework := framework app;
          config := config app;
          stack := stack app;
          app_locals := loc |}, res)
  | Unhandled options =>
      (app,
       match options with
       | _ :: _ =>
           if Node.method_eqb (method req) Node.OPTIONS
           then sendOptionsResponse (framework app) req options initial
           else finalhandler req initial
       | [] => finalhandler req initial
       end)
  end.

(** The server's ['request'] listener: every request is handled by
    the one application object, which is handed on to the next
    request. *)
Definition serve (app : application) (req : request)
    : application * response :=
  app_handle app req.

(** Requests served one after the other. *)
Fixpoint serve_all (app : application) (reqs : list request)
    : application * list response :=
  match reqs with
  | [] => (app, [])
  | req :: rest =>
      let (app1, res) := serve app req in
      let (app2, ress) := serve_all app1 rest in
      (app2, res :: ress)
  end.

(** [app.listen(port, cb)]: an HTTP server is created for the
    application and [server.listen(port, cb)] is called.  Release 5
    first wraps the callback with [once] and registers it for the
    ['error'] event too, so a failed bind calls it with the error. *)
Definition app_listen (app : application) (p : N) (cb : Node.listener)
    : Node.server :=
  match framework app with
  | Express4 => Node.server_listen p cb Node.createServer
  | Express5 =>
      Node.server_listen p cb (Node.once_error cb Node.createServer)
  end.

End Express.

(** ** The scripts *)

(** Statements of a script in source order: [x |> f] applies the next
    statement [f] to what the statements before it built. *)
Notation "x |> f" := (f x) (at level 45, left associativity, only parsing).

(** [src/app.js] *)
Module AppJs.
Import Express.

Definition PORT : N := 8000.

Definition app (rel : release) : application :=
  express rel
  |> app_get "/" (on_response (fun req res =>
                    res_send rel res req "Hello from Express!"))
  |> app_get "/intro" (on_response (fun req res =>
                    res_send rel res req "Hello I am anuj!"))
  |> app_get "/about" (on_response (fun req res =>
                    res_send rel res req "about me")).

(** The callback given to [app.listen]; it takes no argument. *)
Definition listening_callback : Node.listener :=
  fun _ =>
    Node.console_log
      ("Server is running on http://localhost:" ++ Js.toString PORT).

(** The script run to its end: the application with its routes and
    the server on which [listen] was called.  The script never reads
    [env]. *)
Definition main (rel : release) (env : Node.environment)
    : application * Node.server :=
  (app rel, app_listen (app rel) PORT listening_callback).

End AppJs.

(** [src/unnamed/part_001] *)
Module Part001.
Import Express.

Definition PORT : N := 8000.

Definition app (rel : release) : application :=
  express rel
  |> app_get "/" (on_response (fun req res =>
                    res_send rel res req "Hello from Express!"))
  |> app_get "/intro" (on_response (fun req res =>
                    res_send rel res req "Hello I am anuj!"))
  |> app_get "/section" (on_response (fun req res =>
                    res_send rel res req "sexction")).

Definition listening_callback : Node.listener :=
  fun _ =>
    Node.console_log
      ("Server is running on http://localhost:" ++ Js.toString PORT).

Definition main (rel : release) (env : Node.environment)
    : application * Node.server :=
  (app rel, app_listen (app rel) PORT listening_callback).

End Part001.

(** ** The two variants side by side *)

(** Variant A is [src/app.js], variant B is [src/unnamed/part_001]. *)
Inductive variant : Set :=
| VariantA
| VariantB.

Definition main (v : variant) (rel : Express.release)
    (env : Node.environment) : Express.application * Node.server :=
  match v with
  | VariantA => AppJs.main rel env
  | VariantB => Part001.main rel env
  end.

Definition app (v : variant) (rel : Express.release) : Express.application :=
  fst (main v rel (fun _ => None)).

(** The port [listen] was called with. *)
Definition listen_port (v : variant) (rel : Express.release)
    (env : Node.environment) : N :=
  Node.port (snd (main v rel env)).

(** The process after the script has run and the bind has completed
    with [o]. *)
Definition run (v : variant) (rel : Express.release)
    (env : Node.environment) (o : Node.bind_outcome) : Node.process :=
  Node.settle o (snd (main v rel env)) Node.started.

(** What a variant's application does with one request that reaches
    it: the request's method, path and headers. *)
Definition respond (v : variant) (rel : Express.release)
    (m : Node.method) (p : string) (hs : list (string * string))
    : Express.response :=
  snd (Express.app_handle (app v rel) (Express.mkRequest m p hs)).

(** What the client gets from the server: the application's response,
    or nothing when the request is not emitted as ['request']. *)
Definition answer (v : variant) (rel : Express.release)
    (m : Node.method) (p : string) (hs : list (string * string))
    : option Express.response :=
  if Node.emits_request m then Some (respond v rel m p hs) else None.

(** The literal mapping of a variant: each registered path with the
    string its handler sends. *)
Definition literal_mapping (v : variant) : list (string * string) :=
  match v with
  | VariantA =>
      [("/", "Hello from Express!");
       ("/intro", "Hello I am anuj!");
       ("/about", "about me")]
  | VariantB =>
      [("/", "Hello from Express!");
       ("/intro", "Hello I am anuj!");
       ("/section", "sexction")]
  end.

(** The line both listen callbacks print. *)
Definition startup_message : string :=
  "Server is running on http://localhost:8000".

(** The [Content-Type] header of a response. *)
Definition content_type (res : Express.response) : option string :=
  Express.getHeader "Content-Type" (Express.headers res).

(** The settings [express()] starts with and the scripts never change. *)
Definition default_settings : Express.settings :=
  Express.config (Express.express Express.Express4).

(** A request without [If-None-Match] and without
    [If-Modified-Since]. *)
Definition unconditional (hs : list (string * string)) : Prop :=
  Express.lookup "if-none-match" hs = None /\
  Express.lookup "if-modified-since" hs = None.

(** * Properties *)

(** ** The embedding on concrete requests *)

Example sha1_abc :
  Crypto.base64 (Crypto.sha1 (Js.utf8 "abc")) = "qZk+NkcGgWq6PiVxeFDCbJzQ2J0=".
Proof. vm_compute. reflexivity. Qed.

Example etag_hello_world :
  Express.generateETag "Hello World!"
  = "W/" ++ Js.dquote ++ "c-Lve95gjOVATpfV8EL5X4nxwjKHE" ++ Js.dquote.
Proof. vm_compute. reflexivity. Qed.

Example get_root_A :
  respond VariantA Express.Express4 Node.GET "/" [] =
  {| Express.statusCode := 200;
     Express.headers :=
       [("X-Powered-By", "Express");
        ("Content-Type", "text/html; charset=utf-8");
        ("ETag", Express.generateETag "Hello from Express!")];
     Express.contentLength := Some (Express.Length 19);
     Express.body := Express.Chunk "Hello from Express!" |}.
Proof. vm_compute. reflexivity. Qed.

Example get_root_A_revalidated :
  respond VariantA Express.Express4 Node.GET "/"
          [("if-none-match", Express.generateETag "Hello from Express!")] =
  {| Express.statusCode := 304;
     Express.headers :=
       [("X-Powered-By", "Express");
        ("ETag", Express.generateETag "Hello from Express!")];
     Express.contentLength := None;
     Express.body := Express.Chunk "" |}.
Proof. vm_compute. reflexivity. Qed.

Example head_intro_B :
  respond VariantB Express.Express5 Node.HEAD "/intro" [] =
  {| Express.statusCode := 200;
     Express.headers :=
       [("X-Powered-By", "Express");
        ("Content-Type", "text/html; charset=utf-8");
        ("ETag", Express.generateETag "Hello I am anuj!")];
     Express.contentLength := Some (Express.Length 16);
     Express.body := Express.Chunk "" |}.
Proof. vm_compute. reflexivity. Qed.

Example options_root_4 :
  Express.body (respond VariantB Express.Express4 Node.OPTIONS "/" []) =
  Express.Chunk "GET,HEAD".
Proof. vm_compute. reflexivity. Qed.

Example options_root_5 :
  respond VariantB Express.Express5 Node.OPTIONS "/" [] =
  {| Express.statusCode := 200;
     Express.headers :=
       [("X-Powered-By", "Express");
        ("Allow", "GET, HEAD");
        ("Content-Type", "text/plain");
        ("X-Content-Type-Options", "nosniff")];
     Express.contentLength := Some (Express.Length 9);
     Express.body := Express.Chunk "GET, HEAD" |}.
Proof. vm_compute. reflexivity. Qed.

Example get_missing :
  respond VariantA Express.Express4 Node.GET "/does-not-exist" [] =
  {| Express.statusCode := 404;
     Express.headers :=
       [("X-Powered-By", "Express");
        ("Content-Security-Policy", "default-src 'none'");
        ("X-Content-Type-Options", "nosniff");
        ("Content-Type", "text/html; charset=utf-8")];
     Express.contentLength :=
       Some (Express.LengthOf
               (Express.NotFoundDocument Node.GET "/does-not-exist"));
     Express.body :=
       Express.NotFoundDocument Node.GET "/does-not-exist" |}.
Proof. vm_compute. reflexivity. Qed.

Example connect_is_not_answered :
  answer VariantA Express.Express4 Node.CONNECT "/" [] = None.
Proof. reflexivity. Qed.

Example no_cache_examples :
  Express.no_cache "max-age=0, no-cache" = true /\
  Express.no_cache "no-cache=x" = false /\
  Express.parseTokenList "a, b ,c" = ["a"; "b"; "c"].
Proof. repeat split; reflexivity. Qed.

Example port_text : Js.toString 8000 = "8000".
Proof. reflexivity. Qed.

Example run_bound_A :
  Node.stdout (run VariantA Express.Express4 (fun _ => None) Node.Bound) =
  [startup_message].
Proof. reflexivity. Qed.

(** ** Methods *)

Lemma method_name_inj (a b : Node.method) :
  Node.method_name a = Node.method_name b -> a = b.
Proof. destruct a, b; simpl; intros H; try reflexivity; discriminate H. Qed.

Lemma method_eqb_eq (a b : Node.method) :
  Node.method_eqb a b = true <-> a = b.
Proof.
  unfold Node.method_eqb. rewrite String.eqb_eq. split.
  - apply method_name_inj.
  - intros ->. reflexivity.
Qed.

(** ** [res.send] on the response the router passes *)

Lemma req_fresh_tagged (rel : Express.release) (m : Node.method)
    (p : string) (hs : list (string * string)) (chunk : string) :
  Express.req_fresh rel (Express.mkRequest m p hs)
    (Express.set "ETag" (Express.generateETag chunk)
       (Express.setContentLength
          (Some (Express.Length (Js.byteLength chunk)))
          (Express.set "Content-Type" "text/html; charset=utf-8"
             Express.initial))) =
  (Node.method_eqb m Node.GET || Node.method_eqb m Node.HEAD)
  && Express.fresh rel hs (Some (Express.generateETag chunk)).
Proof.
  cbv -[Express.generateETag Express.fresh Node.method_eqb Js.byteLength].
  destruct (Node.method_eqb m Node.GET); destruct (Node.method_eqb m Node.HEAD);
    reflexivity.
Qed.

(** What [res.send] makes of the response the router passes: 304
    without content headers and body for a GET or HEAD request that
    is fresh against the tag of [chunk], and otherwise 200 with the
    html type, the length and the tag. *)
Lemma res_send_initial (rel : Express.release) (req : Express.request)
    (chunk : string) :
  Express.res_send rel Express.initial req chunk =
  if (Node.method_eqb (Express.method req) Node.GET
      || Node.method_eqb (Express.method req) Node.HEAD)
     && Express.fresh rel (Express.req_headers req)
                      (Some (Express.generateETag chunk))
  then
    {| Express.statusCode := 304;
       Express.headers :=
         [("X-Powered-By", "Express");
          ("ETag", Express.generateETag chunk)];
       Express.contentLength := None;
       Express.body := Express.Chunk "" |}
  else
    {| Express.statusCode := 200;
       Express.headers :=
         [("X-Powered-By", "Express");
          ("Content-Type", "text/html; charset=utf-8");
          ("ETag", Express.generateETag chunk)];
       Express.contentLength :=
         Some (Express.Length (Js.byteLength chunk));
       Express.body :=
         if Node.method_eqb (Express.method req) Node.HEAD
         then Express.Chunk "" else Express.Chunk chunk |}.
Proof.
  destruct req as [m p hs]. unfold Express.res_send. cbv zeta.
  change (Express.getHeader "Content-Type" (Express.headers Express.initial))
    with (@None string).
  cbv iota.
  change (negb (Express.truthy
            (Express.getHeader "ETag"
               (Express.headers
                  (Express.set "Content-Type" "text/html; charset=utf-8"
                     Express.initial)))))
    with true.
  cbv iota.
  rewrite req_fresh_tagged.
  cbn [Express.method Express.req_headers].
  destruct ((Node.method_eqb m Node.GET || Node.method_eqb m Node.HEAD)
            && Express.fresh rel hs (Some (Express.generateETag chunk)));
    cbv -[Express.generateETag Node.method_eqb Js.byteLength];
    destruct (Node.method_eqb m Node.HEAD); reflexivity.
Qed.

(** A request without conditional headers is never fresh. *)
Lemma fresh_unconditional (rel : Express.release)
    (hs : list (string * string)) (etag : option string) :
  unconditional hs -> Express.fresh rel hs etag = false.
Proof.
  intros [H1 H2]. unfold Express.fresh. rewrite H1, H2. reflexivity.
Qed.


(** Freshness reads three request headers and nothing else. *)
Lemma fresh_reads_three_headers (rel : Express.release)
    (hs hs' : list (string * string)) (etag : option string) :
  Express.lookup "if-none-match" hs = Express.lookup "if-none-match" hs' ->
  Express.lookup "if-modified-since" hs
    = Express.lookup "if-modified-since" hs' ->
  Express.lookup "cache-control" hs = Express.lookup "cache-control" hs' ->
  Express.fresh rel hs etag = Express.fresh rel hs' etag.
Proof.
  intros H1 H2 H3. unfold Express.fresh. rewrite H1, H2, H3. reflexivity.
Qed.

(** ** Dispatch over the three routes *)

(** The scripts leave the routing settings at their defaults. *)
Lemma app_settings (v : variant) (rel : Express.release) :
  Express.config (app v rel) = default_settings /\
  Express.framework (app v rel) = rel /\
  Express.case_sensitive_routing default_settings = false /\
  Express.strict_routing default_settings = false.
Proof. destruct v, rel; repeat split; reflexivity. Qed.

Ltac mapped_cases H :=
  simpl in H;
  repeat (destruct H as [H | H]; [injection H as <- <- | ]);
  try contradiction.

Ltac by_route_matches p :=
  repeat match goal with
         | |- context [Express.pathRegexp ?r ?c ?q p] =>
             destruct (Express.pathRegexp r c q p) eqn:?
         end.

(** The answer of a script's application, read off its route table:
    the first mapped path that matches decides; GET and HEAD reach the
    handler, which sends the literal; OPTIONS gets the automatic
    answer; every other method, and a path that matches nothing, goes
    to the final handler. *)
Lemma respond_table (v : variant) (rel : Express.release)
    (m : Node.method) (p : string) (hs : list (string * string)) :
  respond v rel m p hs =
  let req := Express.mkRequest m p hs in
  match find (fun e => Express.pathRegexp rel default_settings (fst e) p)
             (literal_mapping v) with
  | Some (_, lit) =>
      if Node.method_eqb m Node.GET || Node.method_eqb m Node.HEAD
      then Express.res_send rel Express.initial req lit
      else if Node.method_eqb m Node.OPTIONS
      then Express.sendOptionsResponse rel req ["GET"; "HEAD"]
                                       Express.initial
      else Express.finalhandler req Express.initial
  | None => Express.finalhandler req Express.initial
  end.
Proof.
  unfold respond, Express.app_handle.
  destruct v, rel, m;
    cbn -[Express.pathRegexp Express.res_send Express.finalhandler
          Express.sendOptionsResponse Express.initial];
    change (Express.mkSettings false false) with default_settings;
    by_route_matches p; reflexivity.
Qed.

(** ** Matching under the default settings *)

Lemma strip_trailing_slashes_id (q : string) :
  Js.ends_with_slash q = false -> Js.strip_trailing_slashes q = q.
Proof.
  induction q as [| c rest IH]; intros H; simpl in *.
  - reflexivity.
  - destruct rest as [| d rest'].
    + simpl. rewrite H. reflexivity.
    + rewrite (IH H). reflexivity.
Qed.

(** Default matching of a route path that does not end in a slash, in
    both releases: the request path equals it up to the case of ASCII
    letters, with or without one slash after it. *)
Lemma default_match_spec (rel : Express.release) (q p : string) :
  Js.ends_with_slash q = false ->
  Express.pathRegexp rel default_settings q p =
  Js.literal_eqb false q p || Js.literal_eqb false (q ++ "/") p.
Proof.
  intros H. unfold Express.pathRegexp, default_settings. simpl.
  destruct rel.
  - rewrite H. reflexivity.
  - rewrite (strip_trailing_slashes_id q H).
    destruct (String.eqb_spec q "/") as [-> | _]; [ discriminate H | ].
    reflexivity.
Qed.

(** Default matching of the root route: release 4 accepts [/] and the
    empty path, release 5 accepts [/] and [//]. *)
Lemma default_match_root (p : string) :
  Express.pathRegexp Express.Express4 default_settings "/" p
    = String.eqb p "/" || String.eqb p "" /\
  Express.pathRegexp Express.Express5 default_settings "/" p
    = String.eqb p "/" || String.eqb p "//".
Proof.
  split.
  - destruct p as [| c [| d r]]; try reflexivity.
    + unfold Express.pathRegexp. simpl. rewrite orb_false_r.
      unfold Js.char_eqb. simpl.
      destruct c as [[] [] [] [] [] [] [] []]; reflexivity.
    + unfold Express.pathRegexp. simpl. rewrite andb_false_r.
      destruct (Ascii.eqb c "/"); reflexivity.
  - destruct p as [| c [| d [| e r]]]; try reflexivity.
    + unfold Express.pathRegexp. simpl. rewrite andb_false_r, orb_false_r.
      destruct c as [[] [] [] [] [] [] [] []]; reflexivity.
    + unfold Express.pathRegexp. simpl.
      destruct c as [[] [] [] [] [] [] [] []]; try reflexivity;
      destruct d as [[] [] [] [] [] [] [] []]; reflexivity.
    + unfold Express.pathRegexp. simpl. rewrite !andb_false_r.
      destruct (Ascii.eqb c "/"); destruct (Ascii.eqb d "/"); reflexivity.
Qed.

Lemma char_eqb_eq (s : bool) (c d : ascii) :
  Js.char_eqb s c d = true <->
  (if s then c else Js.canonicalize c) = (if s then d else Js.canonicalize d).
Proof. unfold Js.char_eqb. destruct s; apply Ascii.eqb_eq. Qed.

(** Two patterns that match the same input match each other. *)
Lemma literal_eqb_common (s : bool) (a b p : string) :
  Js.literal_eqb s a p = true ->
  Js.literal_eqb s b p = true ->
  Js.literal_eqb s a b = true.
Proof.
  revert b p. induction a as [| c a IH]; intros [| d b] [| e p]; simpl;
    try discriminate; try reflexivity.
  rewrite !andb_true_iff, !char_eqb_eq.
  intros [Hc Ha] [Hd Hb]. split.
  - congruence.
  - exact (IH b p Ha Hb).
Qed.

(** What a route path is compiled to under the default settings: one
    of two literal forms has to match the request path. *)
Lemma default_match_forms (rel : Express.release) (q p : string) :
  Express.pathRegexp rel default_settings q p = true ->
  exists x,
    Js.literal_eqb false x p = true /\
    (x = match rel with
         | Express.Express4 =>
             if Js.ends_with_slash q then q else q ++ "/"
         | Express.Express5 =>
             (if String.eqb q "/" then q
              else Js.strip_trailing_slashes q) ++ "/"
         end \/
     x = match rel with
         | Express.Express4 =>
             if Js.ends_with_slash q then Js.drop_last q else q
         | Express.Express5 =>
             if String.eqb q "/" then q else Js.strip_trailing_slashes q
         end).
Proof.
  unfold Express.pathRegexp, default_settings. simpl.
  destruct rel.
  - destruct (Js.ends_with_slash q); rewrite orb_true_iff;
      intros [H | H]; eexists; (split; [ exact H | ]); auto.
  - rewrite orb_true_iff; intros [H | H]; eexists;
      (split; [ exact H | ]); auto.
Qed.

(** No request path matches two different routes of a script. *)
Lemma routes_disjoint (v : variant) (rel : Express.release)
    (p q1 lit1 q2 lit2 : string) :
  In (q1, lit1) (literal_mapping v) ->
  In (q2, lit2) (literal_mapping v) ->
  Express.pathRegexp rel default_settings q1 p = true ->
  Express.pathRegexp rel default_settings q2 p = true ->
  q1 = q2 /\ lit1 = lit2.
Proof.
  intros H1 H2 M1 M2.
  destruct (default_match_forms rel q1 p M1) as [x [Hx Fx]].
  destruct (default_match_forms rel q2 p M2) as [y [Hy Fy]].
  pose proof (literal_eqb_common false x y p Hx Hy) as Hxy.
  clear M1 M2 Hx Hy.
  destruct v; mapped_cases H1; mapped_cases H2; try (split; reflexivity);
    exfalso; destruct rel;
    destruct Fx as [-> | ->]; destruct Fy as [-> | ->];
    vm_compute in Hxy; discriminate Hxy.
Qed.

Lemma other_routes_do_not_match (v : variant) (rel : Express.release)
    (p q lit q' lit' : string) :
  In (q, lit) (literal_mapping v) ->
  Express.pathRegexp rel default_settings q p = true ->
  In (q', lit') (literal_mapping v) ->
  q' <> q ->
  Express.pathRegexp rel default_settings q' p = false.
Proof.
  intros Hin Hm Hin' Hne.
  destruct (Express.pathRegexp rel default_settings q' p) eqn:E;
    [ | reflexivity ].
  destruct (routes_disjoint v rel p q' lit' q lit Hin' Hin E Hm) as [Hq _].
  contradiction.
Qed.

(** Matching without case is equality of the upper-case forms. *)
Lemma literal_eqb_upper (a b : string) :
  Js.literal_eqb false a b = true <-> Js.upper a = Js.upper b.
Proof.
  revert b. induction a as [| c a IH]; intros [| d b];
    cbn [Js.literal_eqb Js.upper];
    try (split; [ discriminate | discriminate ]);
    try (split; reflexivity).
  rewrite andb_true_iff, (char_eqb_eq false), IH. split.
  - intros [Hc Ha]. rewrite Hc, Ha. reflexivity.
  - intros H. injection H as Hc Ha. split; assumption.
Qed.

Lemma upper_empty (p : string) : Js.upper "" = Js.upper p -> p = "".
Proof. destruct p; [ reflexivity | discriminate ]. Qed.

(** A route path without a final slash, or the root, matches what
    equals it without case. *)
Lemma match_first_form (rel : Express.release) (q p : string) :
  Js.ends_with_slash q = false \/ q = "/" ->
  Js.literal_eqb false q p = true ->
  Express.pathRegexp rel default_settings q p = true.
Proof.
  intros Hq H. unfold Express.pathRegexp, default_settings. simpl.
  destruct rel.
  - destruct (Js.ends_with_slash q); rewrite H; reflexivity.
  - destruct Hq as [Hq | ->].
    + rewrite (strip_trailing_slashes_id q Hq).
      destruct (String.eqb q "/"); rewrite H; reflexivity.
    + rewrite String.eqb_refl, H. reflexivity.
Qed.

(** A mapped path matches the paths that equal it, or (the root
    apart) equal it with one more slash, up to the case of ASCII
    letters. *)
Lemma match_of_upper (v : variant) (rel : Express.release)
    (p q lit : string) :
  In (q, lit) (literal_mapping v) ->
  Js.upper p = Js.upper q \/ (q <> "/" /\ Js.upper p = Js.upper (q ++ "/")) ->
  Express.pathRegexp rel default_settings q p = true.
Proof.
  intros Hin [H | [Hq H]].
  - apply match_first_form.
    + destruct v; mapped_cases Hin; auto.
    + apply literal_eqb_upper. symmetry. exact H.
  - rewrite default_match_spec.
    + apply orb_true_iff. right. apply literal_eqb_upper. symmetry. exact H.
    + destruct v; mapped_cases Hin; try reflexivity; contradiction Hq;
        reflexivity.
Qed.

(** A non-empty path that equals no mapped path, and no mapped path
    with one more slash, up to case, matches no mapped path. *)
Lemma no_match_of_upper (v : variant) (rel : Express.release)
    (p q lit : string) :
  p <> "" ->
  In (q, lit) (literal_mapping v) ->
  Js.upper p <> Js.upper q ->
  Js.upper p <> Js.upper (q ++ "/") ->
  Express.pathRegexp rel default_settings q p = false.
Proof.
  intros Hp Hin H1 H2.
  destruct (Express.pathRegexp rel default_settings q p) eqn:E;
    [ exfalso | reflexivity ].
  destruct (default_match_forms rel q p E) as [x [Hx Fx]].
  apply literal_eqb_upper in Hx.
  destruct v; mapped_cases Hin; destruct rel; destruct Fx as [-> | ->];
    first [ exact (H1 (eq_sym Hx)) | exact (H2 (eq_sym Hx))
          | exact (Hp (upper_empty p Hx)) ].
Qed.

(** The first mapped path that matches, as [find] sees it. *)
Lemma find_matching (v : variant) (rel : Express.release)
    (p q lit : string) :
  In (q, lit) (literal_mapping v) ->
  Express.pathRegexp rel default_settings q p = true ->
  find (fun e => Express.pathRegexp rel default_settings (fst e) p)
       (literal_mapping v) = Some (q, lit).
Proof.
  intros Hin Hm.
  assert (Hothers : forall q' lit',
             In (q', lit') (literal_mapping v) -> q' <> q ->
             Express.pathRegexp rel default_settings q' p = false)
    by (intros q' lit' Hin' Hne;
        exact (other_routes_do_not_match v rel p q lit q' lit'
                 Hin Hm Hin' Hne)).
  destruct v; mapped_cases Hin; cbn [find literal_mapping fst];
    by_route_matches p; try reflexivity; exfalso; try congruence;
    match goal with
    | E : Express.pathRegexp _ _ ?q' p = true |- _ =>
        assert (Express.pathRegexp rel default_settings q' p = false)
          by (eapply Hothers; [ simpl; eauto 6 | discriminate ]);
        congruence
    end.
Qed.

Lemma find_nothing (v : variant) (rel : Express.release) (p : string) :
  (forall q lit, In (q, lit) (literal_mapping v) ->
                 Express.pathRegexp rel default_settings q p = false) ->
  find (fun e => Express.pathRegexp rel default_settings (fst e) p)
       (literal_mapping v) = None.
Proof.
  intros H. destruct v; cbn [find literal_mapping fst];
    repeat (rewrite (H _ _) by (simpl; eauto 6)); reflexivity.
Qed.

(** A mapped path matches itself. *)
Lemma self_match (v : variant) (rel : Express.release) (q lit : string) :
  In (q, lit) (literal_mapping v) ->
  Express.pathRegexp rel default_settings q q = true.
Proof.
  intros Hin. destruct v; mapped_cases Hin; destruct rel; vm_compute;
    reflexivity.
Qed.

(** GET on a path that matches a mapped path: [res.send] of its
    literal on the response the router passes. *)
Lemma get_matched (v : variant) (rel : Express.release)
    (p q lit : string) (hs : list (string * string)) :
  In (q, lit) (literal_mapping v) ->
  Express.pathRegexp rel default_settings q p = true ->
  respond v rel Node.GET p hs =
  if Express.fresh rel hs (Some (Express.generateETag lit))
  then
    {| Express.statusCode := 304;
       Express.headers :=
         [("X-Powered-By", "Express");
          ("ETag", Express.generateETag lit)];
       Express.contentLength := None;
       Express.body := Express.Chunk "" |}
  else
    {| Express.statusCode := 200;
       Express.headers :=
         [("X-Powered-By", "Express");
          ("Content-Type", "text/html; charset=utf-8");
          ("ETag", Express.generateETag lit)];
       Express.contentLength := Some (Express.Length (Js.byteLength lit));
       Express.body := Express.Chunk lit |}.
Proof.
  intros Hin Hm. rewrite respond_table. cbv zeta.
  rewrite (find_matching v rel p q lit Hin Hm).
  rewrite res_send_initial. reflexivity.
Qed.

(** A path that matches no mapped path: the final handler, for every
    method. *)
Lemma unmatched (v : variant) (rel : Express.release) (m : Node.method)
    (p : string) (hs : list (string * string)) :
  (forall q lit, In (q, lit) (literal_mapping v) ->
                 Express.pathRegexp rel default_settings q p = false) ->
  respond v rel m p hs =
  Express.finalhandler (Express.mkRequest m p hs) Express.initial.
Proof.
  intros H. rewrite respond_table. cbv zeta.
  rewrite (find_nothing v rel p H). reflexivity.
Qed.

(** GET on a mapped path, without request headers. *)
Lemma get_mapped_plain (v : variant) (rel : Express.release)
    (p lit : string) :
  In (p, lit) (literal_mapping v) ->
  respond v rel Node.GET p [] =
  {| Express.statusCode := 200;
     Express.headers :=
       [("X-Powered-By", "Express");
        ("Content-Type", "text/html; charset=utf-8");
        ("ETag", Express.generateETag lit)];
     Express.contentLength := Some (Express.Length (Js.byteLength lit));
     Express.body := Express.Chunk lit |}.
Proof.
  intros Hin.
  rewrite (get_matched v rel p p lit [] Hin (self_match v rel p lit Hin)).
  reflexivity.
Qed.

(** ** The route table *)

(** The literal mapping is read off the routes each script registers:
    the stack holds the mapped paths in order, every route is a GET
    route, and the handler of each sends the mapped literal and
    leaves [app.locals] alone. *)
Lemma literal_mapping_is_route_table (v : variant) (rel : Express.release)
    (p : string) (loc : Express.locals) :
  map (fun l =>
         (Express.layer_path l,
          Express.methods l,
          Express.handle l (Express.mkRequest Node.GET p [])
                         Express.initial loc))
      (Express.stack (app v rel)) =
  map (fun e =>
         (fst e, [Node.GET],
          (Express.res_send rel Express.initial
             (Express.mkRequest Node.GET p []) (snd e), loc)))
      (literal_mapping v).
Proof. destruct v, rel; reflexivity. Qed.

(** ** GET on the mapped paths *)










(** C7: both scripts define [PORT] as 8000 and call [listen] with it;
    the port, and everything else the script builds, is the same
    whatever the environment holds. *)
Theorem listen_port_is_8000 (v : variant) (rel : Express.release)
    (env env' : Node.environment) :
  AppJs.PORT = 8000%N /\
  Part001.PORT = 8000%N /\
  listen_port v rel env = 8000%N /\
  main v rel env = main v rel env'.
Proof. destruct v, rel; repeat split; reflexivity. Qed.

(** ** Content type *)

(** C2, as stated, fails: the answer to GET / carries
    [text/html; charset=utf-8], which [res.send] sets for a string
    when the handler has set no type, and not [text/plain]. *)
Lemma content_type_is_not_text_plain :
  In ("/", "Hello from Express!") (literal_mapping VariantA) /\
  Express.statusCode (respond VariantA Express.Express4 Node.GET "/" [])
    = 200%N /\
  content_type (respond VariantA Express.Express4 Node.GET "/" [])
    <> Some "text/plain".
Proof.
  split; [ left; reflexivity | ].
  split; [ vm_compute; reflexivity | ].
  vm_compute. discriminate.
Qed.

(** C2, amended: for every GET request whose path is in the literal
    mapping, the 200 response carries the content type
    [text/html; charset=utf-8]: whenever the answer has status 200,
    and so for every request without conditional headers. *)
Theorem get_mapped_path_content_type (v : variant) (rel : Express.release)
    (p lit : string) (hs : list (string * string)) :
  In (p, lit) (literal_mapping v) ->
  (Express.statusCode (respond v rel Node.GET p hs) = 200%N ->
   content_type (respond v rel Node.GET p hs)
     = Some "text/html; charset=utf-8") /\
  (unconditional hs ->
   Express.statusCode (respond v rel Node.GET p hs) = 200%N) /\
  Express.statusCode (respond v rel Node.GET p []) = 200%N /\
  content_type (respond v rel Node.GET p [])
    = Some "text/html; charset=utf-8".
Proof.
  intros Hin.
  pose proof (self_match v rel p lit Hin) as Hm.
  rewrite !(get_matched v rel p p lit _ Hin Hm).
  change (Express.fresh rel [] (Some (Express.generateETag lit))) with false.
  repeat split.
  - destruct (Express.fresh rel hs (Some (Express.generateETag lit)));
      [ discriminate | reflexivity ].
  - intros H. rewrite (fresh_unconditional rel hs _ H). reflexivity.
Qed.

Lemma get_mapped_path_content_type_witness :
  Express.statusCode (respond VariantA Express.Express4 Node.GET "/about" [])
    = 200%N /\
  content_type (respond VariantA Express.Express4 Node.GET "/about" [])
    = Some "text/html; charset=utf-8".
Proof.
  apply (get_mapped_path_content_type VariantA Express.Express4
           "/about" "about me" []).
  simpl. right. right. left. reflexivity.
Defined.

(** ** Methods other than GET *)

(** C4: a method other than GET on a mapped path is never answered
    with the literal that GET gets there (HEAD gets an empty body,
    OPTIONS the list of allowed methods, every other method the page
    of the final handler, and CONNECT no answer at all), and POST /
    is answered 404; this holds whatever the headers of the request. *)
Theorem other_method_never_sends_literal (v : variant)
    (rel : Express.release) (m : Node.method) (p lit : string)
    (hs : list (string * string)) :
  m <> Node.GET ->
  In (p, lit) (literal_mapping v) ->
  Express.body (respond v rel m p hs) <> Express.Chunk lit /\
  Express.statusCode (respond v rel Node.POST "/" hs) = 404%N /\
  answer v rel m p hs <> Some (respond v rel Node.GET p []) /\
  answer v rel Node.POST "/" hs = Some (respond v rel Node.POST "/" hs).
Proof.
  intros Hm Hin.
  assert (Hbody : Express.body (respond v rel m p hs) <> Express.Chunk lit).
  { rewrite respond_table. cbv zeta.
    rewrite (find_matching v rel p p lit Hin (self_match v rel p lit Hin)).
    destruct (Node.method_eqb m Node.GET) eqn:EG;
      [ apply method_eqb_eq in EG; contradiction | ].
    cbn [orb].
    destruct (Node.method_eqb m Node.HEAD) eqn:EH.
    - rewrite res_send_initial. cbn [Express.method Express.req_headers].
      rewrite EG, EH.
      destruct (_ && _); cbn [Express.body];
        destruct v; mapped_cases Hin; discriminate.
    - destruct (Node.method_eqb m Node.OPTIONS) eqn:EO.
      + apply method_eqb_eq in EO. subst m.
        destruct v; mapped_cases Hin; destruct rel; vm_compute; discriminate.
      + unfold Express.finalhandler. cbn [Express.body Express.method].
        rewrite EH. discriminate. }
  repeat split.
  - exact Hbody.
  - rewrite respond_table. cbv zeta.
    destruct (find _ _) as [[q l] | ]; reflexivity.
  - unfold answer. destruct (Node.emits_request m); [ | discriminate ].
    intros H. injection H as H. apply Hbody. rewrite H.
    rewrite (get_mapped_plain v rel p lit Hin). reflexivity.
Qed.

Lemma other_method_never_sends_literal_witness :
  Express.body (respond VariantA Express.Express4 Node.POST "/" [])
    <> Express.Chunk "Hello from Express!" /\
  Express.statusCode (respond VariantA Express.Express4 Node.POST "/" [])
    = 404%N /\
  answer VariantA Express.Express4 Node.POST "/" []
    <> Some (respond VariantA Express.Express4 Node.GET "/" []) /\
  answer VariantA Express.Express4 Node.POST "/" []
    = Some (respond VariantA Express.Express4 Node.POST "/" []).
Proof.
  apply (other_method_never_sends_literal VariantA Express.Express4
           Node.POST "/" "Hello from Express!" []).
  - discriminate.
  - simpl. left. reflexivity.
Defined.

(** ** Paths outside the mapping *)

(** C3, as stated, fails: [/About] and [/about/] are not paths of
    variant A's literal mapping, and GET on either is answered 200
    with the body of [/about], because [express()] routes without
    case sensitivity and without strict trailing slashes. *)
Lemma case_and_slash_variants_are_served :
  ~ In "/About" (map fst (literal_mapping VariantA)) /\
  respond VariantA Express.Express4 Node.GET "/About" []
    = respond VariantA Express.Express4 Node.GET "/about" [] /\
  Express.statusCode
    (respond VariantA Express.Express4 Node.GET "/About" []) = 200%N /\
  ~ In "/about/" (map fst (literal_mapping VariantA)) /\
  Express.statusCode
    (respond VariantA Express.Express4 Node.GET "/about/" []) = 200%N /\
  Express.statusCode
    (respond VariantA Express.Express5 Node.GET "/About" []) = 200%N /\
  Express.statusCode
    (respond VariantA Express.Express5 Node.GET "/about/" []) = 200%N.
Proof.
  repeat split; try (vm_compute; reflexivity);
    simpl; intros H; repeat (destruct H as [H | H]; [ discriminate H | ]);
    exact H.
Qed.

(** C3, amended: a GET request whose path is not empty and differs,
    even without regard to the case of ASCII letters, from every
    mapped path and from every mapped path followed by one slash is
    answered 404 with the page of the final handler.  A GET request
    whose path equals a mapped path up to case, or a mapped path other
    than [/] followed by one slash up to case, is answered exactly
    like a GET request to the mapped path with the same headers. *)
Theorem unmatched_get_is_404 (v : variant) (rel : Express.release)
    (p : string) (hs : list (string * string)) :
  (p <> "" ->
   (forall q lit, In (q, lit) (literal_mapping v) ->
                  Js.upper p <> Js.upper q /\
                  Js.upper p <> Js.upper (q ++ "/")) ->
   Express.statusCode (respond v rel Node.GET p hs) = 404%N /\
   Express.body (respond v rel Node.GET p hs)
     = Express.NotFoundDocument Node.GET p) /\
  (forall q lit,
     In (q, lit) (literal_mapping v) ->
     Js.upper p = Js.upper q \/
     (q <> "/" /\ Js.upper p = Js.upper (q ++ "/")) ->
     respond v rel Node.GET p hs = respond v rel Node.GET q hs).
Proof.
  split.
  - intros Hp H. rewrite unmatched.
    + split; reflexivity.
    + intros q lit Hin. destruct (H q lit Hin) as [H1 H2].
      exact (no_match_of_upper v rel p q lit Hp Hin H1 H2).
  - intros q lit Hin H.
    rewrite (get_matched v rel p q lit hs Hin
               (match_of_upper v rel p q lit Hin H)).
    rewrite (get_matched v rel q q lit hs Hin (self_match v rel q lit Hin)).
    reflexivity.
Qed.

Lemma unmatched_get_is_404_witness :
  (Express.statusCode
     (respond VariantA Express.Express4 Node.GET "/does-not-exist" [])
     = 404%N /\
   Express.body
     (respond VariantA Express.Express4 Node.GET "/does-not-exist" [])
     = Express.NotFoundDocument Node.GET "/does-not-exist") /\
  respond VariantA Express.Express4 Node.GET "/ABOUT/" []
    = respond VariantA Express.Express4 Node.GET "/about" [].
Proof.
  split.
  - apply (proj1 (unmatched_get_is_404 VariantA Express.Express4
                    "/does-not-exist" [])).
    + discriminate.
    + intros q lit H. simpl in H.
      repeat (destruct H as [H | H];
              [ injection H as <- <-; split; intros E; vm_compute in E;
                discriminate E | ]).
      destruct H.
  - apply (proj2 (unmatched_get_is_404 VariantA Express.Express4
                    "/ABOUT/" []) "/about" "about me").
    + simpl. right. right. left. reflexivity.
    + right. split; [ discriminate | reflexivity ].
Defined.

(** ** Listening and the startup message *)

(** The line the callbacks build from [PORT] is the startup message,
    and it ends with the URL. *)
Lemma startup_message_text :
  "Server is running on http://localhost:" ++ Js.toString AppJs.PORT
    = startup_message /\
  "Server is running on http://localhost:" ++ Js.toString Part001.PORT
    = startup_message /\
  startup_message = "Server is running on " ++ "http://localhost:8000".
Proof. repeat split; reflexivity. Qed.

(** C8 fails on the code under release 5 of the framework:
    [app.listen] registers the callback for the ['error'] event as
    well, and the scripts' callback ignores the error it is passed, so
    when the bind fails the startup message is written although
    nothing is listening. *)
Lemma failed_bind_prints_under_release_5 :
  Node.stdout
    (run VariantA Express.Express5 (fun _ => None)
         (Node.BindError "EADDRINUSE")) = [startup_message] /\
  Node.listening
    (run VariantA Express.Express5 (fun _ => None)
         (Node.BindError "EADDRINUSE")) = false.
Proof. split; reflexivity. Qed.

(** With release 4 a failed bind writes nothing: no listener is
    registered for ['error'], and the error is thrown. *)
Lemma failed_bind_is_thrown_under_release_4 (v : variant)
    (env : Node.environment) (code : string) :
  Node.stdout (run v Express.Express4 env (Node.BindError code)) = [] /\
  Node.listening (run v Express.Express4 env (Node.BindError code))
    = false /\
  Node.uncaught (run v Express.Express4 env (Node.BindError code)) = true.
Proof. destruct v; repeat split; reflexivity. Qed.

(** Once the listener is bound, exactly one startup message has been
    written, and it includes [http://localhost:8000]; whatever the
    outcome of the bind, nothing else and never more than that one
    message is written. *)
Lemma startup_message_when_bound (v : variant) (rel : Express.release)
    (env : Node.environment) :
  Node.stdout (run v rel env Node.Bound) = [startup_message] /\
  Node.listening (run v rel env Node.Bound) = true /\
  Js.includes "http://localhost:8000" startup_message = true /\
  (forall o, Node.stdout (run v rel env o) = [] \/
             Node.stdout (run v rel env o) = [startup_message]).
Proof.
  repeat split; try (destruct v, rel; reflexivity).
  intros o. destruct v, rel, o; (left; reflexivity) || (right; reflexivity).
Qed.

(** Under release 4 the claim holds as it is written: the startup
    message is written, once, exactly when the listener is bound. *)
Lemma startup_message_only_when_bound_under_release_4 (v : variant)
    (env : Node.environment) (o : Node.bind_outcome) :
  Node.stdout (run v Express.Express4 env o)
    = (if Node.listening (run v Express.Express4 env o)
       then [startup_message] else []) /\
  Node.listening (run v Express.Express4 env o)
    = match o with Node.Bound => true | Node.BindError _ => false end.
Proof. destruct v, o; split; reflexivity. Qed.

(** ** Requests one after the other *)

(** The handlers of the scripts leave the application as it is. *)
Lemma scripts_keep_application (v : variant) (rel : Express.release)
    (req : Express.request) :
  fst (Express.serve (app v rel) req) = app v rel.
Proof.
  destruct req as [m p hs]. unfold Express.serve, Express.app_handle.
  destruct v, rel, m;
    cbn -[Express.pathRegexp Express.res_send Express.finalhandler
          Express.sendOptionsResponse Express.initial];
    by_route_matches p; reflexivity.
Qed.

Lemma serve_all_keeps_application (v : variant) (rel : Express.release)
    (reqs : list Express.request) :
  fst (Express.serve_all (app v rel) reqs) = app v rel.
Proof.
  induction reqs as [| req rest IH]; cbn [Express.serve_all].
  - reflexivity.
  - pose proof (scripts_keep_application v rel req) as H.
    destruct (Express.serve (app v rel) req) as [a1 res]. simpl in H.
    subst a1.
    destruct (Express.serve_all (app v rel) rest) as [a2 ress].
    exact IH.
Qed.

(** That is a fact about these handlers and not about every
    application: a handler that writes to [app.locals] can answer the
    same request differently the second time. *)
Lemma a_stateful_handler_drifts :
  exists (a : Express.application) (req : Express.request),
    snd (Express.serve (fst (Express.serve a req)) req)
    <> snd (Express.serve a req).
Proof.
  exists (Express.app_get "/"
            (fun req res loc =>
               (Express.res_send Express.Express4 res req
                  (match Express.lookup "seen" loc with
                   | Some _ => "again"
                   | None => "first"
                   end),
                ("seen", "yes") :: loc))
            (Express.express Express.Express4)).
  exists (Express.mkRequest Node.GET "/" []).
  vm_compute. discriminate.
Qed.

(** [res.send] reads the request headers for GET and HEAD only. *)
Lemma res_send_other_methods (rel : Express.release) (res : Express.response)
    (m : Node.method) (p : string) (hs hs' : list (string * string))
    (chunk : string) :
  Node.method_eqb m Node.GET || Node.method_eqb m Node.HEAD = false ->
  Express.res_send rel res (Express.mkRequest m p hs) chunk
  = Express.res_send rel res (Express.mkRequest m p hs') chunk.
Proof.
  intros H. unfold Express.res_send, Express.req_fresh.
  cbn [Express.method Express.req_headers]. rewrite H. reflexivity.
Qed.

(** The answer reads three request headers and nothing else of
    them. *)
Lemma respond_reads_three_headers (v : variant) (rel : Express.release)
    (m : Node.method) (p : string) (hs hs' : list (string * string)) :
  Express.lookup "if-none-match" hs = Express.lookup "if-none-match" hs' ->
  Express.lookup "if-modified-since" hs
    = Express.lookup "if-modified-since" hs' ->
  Express.lookup "cache-control" hs = Express.lookup "cache-control" hs' ->
  respond v rel m p hs = respond v rel m p hs'.
Proof.
  intros H1 H2 H3. rewrite !respond_table. cbv zeta.
  destruct (find _ _) as [[q lit] | ]; [ | reflexivity ].
  destruct (Node.method_eqb m Node.GET || Node.method_eqb m Node.HEAD)
    eqn:E.
  - rewrite !res_send_initial. cbn [Express.method Express.req_headers].
    rewrite (fresh_reads_three_headers rel hs hs' _ H1 H2 H3). reflexivity.
  - destruct (Node.method_eqb m Node.OPTIONS); [ | reflexivity ].
    unfold Express.sendOptionsResponse. destruct rel; [ | reflexivity ].
    apply res_send_other_methods. exact E.
Qed.

(** C9, as stated, fails on "a pure function of (method, path)": two
    GET requests to [/] get different answers when one of them
    carries [If-None-Match: *]. *)
Lemma answer_depends_on_conditional_headers :
  respond VariantA Express.Express4 Node.GET "/" []
  <> respond VariantA Express.Express4 Node.GET "/" [("if-none-match", "*")]
  /\
  Express.statusCode (respond VariantA Express.Express4 Node.GET "/" [])
    = 200%N /\
  Express.statusCode
    (respond VariantA Express.Express4 Node.GET "/" [("if-none-match", "*")])
    = 304%N.
Proof.
  split; [ | split; vm_compute; reflexivity ].
  intros H. apply (f_equal Express.statusCode) in H. vm_compute in H.
  discriminate H.
Qed.

(** C9, amended: request handling is deterministic and idempotent.
    After any requests served before it, a request gets the answer
    computed from its method, path and headers alone; sent again, with
    any requests in between, it gets the same answer, and the
    application is left as the script built it.  Of the headers only
    [If-None-Match], [If-Modified-Since] and [Cache-Control] are
    read: two requests with the same method and path that agree on
    these three get the same answer. *)
Theorem responses_do_not_depend_on_history (v : variant)
    (rel : Express.release) (history between : list Express.request)
    (m : Node.method) (p : string) (hs hs' : list (string * string)) :
  Express.lookup "if-none-match" hs = Express.lookup "if-none-match" hs' ->
  Express.lookup "if-modified-since" hs
    = Express.lookup "if-modified-since" hs' ->
  Express.lookup "cache-control" hs = Express.lookup "cache-control" hs' ->
  let req := Express.mkRequest m p hs in
  let a1 := fst (Express.serve_all (app v rel) history) in
  let first := Express.serve a1 req in
  let a2 := fst (Express.serve_all (fst first) between) in
  let second := Express.serve a2 req in
  snd first = respond v rel m p hs /\
  snd second = snd first /\
  fst second = app v rel /\
  respond v rel m p hs = respond v rel m p hs'.
Proof.
  intros H1 H2 H3. cbv zeta.
  rewrite !serve_all_keeps_application.
  rewrite !scripts_keep_application.
  rewrite !serve_all_keeps_application.
  repeat split.
  - apply scripts_keep_application.
  - exact (respond_reads_three_headers v rel m p hs hs' H1 H2 H3).
Qed.

Lemma responses_do_not_depend_on_history_witness :
  let req := Express.mkRequest Node.GET "/intro" [("accept", "text/html")] in
  let history := [Express.mkRequest Node.POST "/" [];
                  Express.mkRequest Node.GET "/about"
                                    [("if-none-match", "*")]] in
  let between := [Express.mkRequest Node.HEAD "/nowhere" []] in
  let a1 :=
    fst (Express.serve_all (app VariantA Express.Express5) history) in
  let first := Express.serve a1 req in
  let a2 := fst (Express.serve_all (fst first) between) in
  let second := Express.serve a2 req in
  snd first
    = respond VariantA Express.Express5 Node.GET "/intro"
              [("accept", "text/html")] /\
  snd second = snd first /\
  fst second = app VariantA Express.Express5 /\
  respond VariantA Express.Express5 Node.GET "/intro"
          [("accept", "text/html")]
    = respond VariantA Express.Express5 Node.GET "/intro" [].
Proof.
  apply (responses_do_not_depend_on_history VariantA Express.Express5
           [Express.mkRequest Node.POST "/" [];
            Express.mkRequest Node.GET "/about" [("if-none-match", "*")]]
           [Express.mkRequest Node.HEAD "/nowhere" []]
           Node.GET "/intro" [("accept", "text/html")] []);
    reflexivity.
Defined.

(** ** The two variants compared *)

(** Away from the third route the variants cannot be told apart: a
    request, of any method and with any headers, whose path matches
    neither [/about] nor [/section] gets the same answer from both. *)
Lemma variants_agree_off_third_route (rel : Express.release)
    (m : Node.method) (p : string) (hs : list (string * string)) :
  Express.pathRegexp rel default_settings "/about" p = false ->
  Express.pathRegexp rel default_settings "/section" p = false ->
  respond VariantA rel m p hs = respond VariantB rel m p hs.
Proof.
  intros HA HB. rewrite !respond_table. cbv zeta.
  cbn [find literal_mapping fst]. rewrite HA, HB. reflexivity.
Qed.

(** C10: on their shared surface the variants behave alike.  GET / and
    GET /intro get the same answer from both, whatever the headers of
    the request; both listen on port 8000, and both write the same
    startup message for every outcome of the bind; their first two
    routes are the same and only the third differs ([/about] and
    [about me] against [/section] and [sexction]). *)
Theorem variants_agree_on_shared_surface (rel : Express.release)
    (env : Node.environment) (hs : list (string * string)) :
  respond VariantA rel Node.GET "/" hs = respond VariantB rel Node.GET "/" hs
  /\
  respond VariantA rel Node.GET "/intro" hs
    = respond VariantB rel Node.GET "/intro" hs /\
  listen_port VariantA rel env = 8000%N /\
  listen_port VariantB rel env = 8000%N /\
  (forall o, run VariantA rel env o = run VariantB rel env o) /\
  AppJs.listening_callback = Part001.listening_callback /\
  firstn 2 (Express.stack (app VariantA rel))
    = firstn 2 (Express.stack (app VariantB rel)) /\
  firstn 2 (literal_mapping VariantA) = firstn 2 (literal_mapping VariantB) /\
  skipn 2 (literal_mapping VariantA) = [("/about", "about me")] /\
  skipn 2 (literal_mapping VariantB) = [("/section", "sexction")] /\
  respond VariantA rel Node.GET "/about" hs
    <> respond VariantB rel Node.GET "/about" hs /\
  respond VariantA rel Node.GET "/section" hs
    <> respond VariantB rel Node.GET "/section" hs.
Proof.
  assert (Hoff : forall p,
             Express.pathRegexp rel default_settings "/about" p = false ->
             Express.pathRegexp rel default_settings "/section" p = false ->
             respond VariantA rel Node.GET p hs
             = respond VariantB rel Node.GET p hs)
    by (intros p; apply variants_agree_off_third_route).
  assert (HinA : In ("/about", "about me") (literal_mapping VariantA))
    by (simpl; auto).
  assert (HinB : In ("/section", "sexction") (literal_mapping VariantB))
    by (simpl; auto).
  split. { apply Hoff; destruct rel; reflexivity. }
  split. { apply Hoff; destruct rel; reflexivity. }
  split. { destruct rel; reflexivity. }
  split. { destruct rel; reflexivity. }
  split. { intros o. destruct rel, o; vm_compute; reflexivity. }
  split. { reflexivity. }
  split. { destruct rel; cbn -[Express.res_send]; reflexivity. }
  split. { reflexivity. }
  split. { reflexivity. }
  split. { reflexivity. }
  split.
  - rewrite (get_matched VariantA rel _ _ _ hs HinA
               (self_match VariantA rel _ _ HinA)).
    rewrite (unmatched VariantB rel Node.GET "/about" hs)
      by (intros q lit H; mapped_cases H; destruct rel; reflexivity).
    intros H. apply (f_equal Express.statusCode) in H.
    destruct (Express.fresh rel hs _); discriminate H.
  - rewrite (get_matched VariantB rel _ _ _ hs HinB
               (self_match VariantB rel _ _ HinB)).
    rewrite (unmatched VariantA rel Node.GET "/section" hs)
      by (intros q lit H; mapped_cases H; destruct rel; reflexivity).
    intros H. apply (f_equal Express.statusCode) in H.
    destruct (Express.fresh rel hs _); discriminate H.
Qed.

(** * Further properties of the scripts *)

(** X2: the routes of a script do not overlap: a request path matches
    at most one of the mapped paths, so the order in which the routes
    were registered never decides an answer. *)
Theorem mapped_paths_do_not_overlap (v : variant) (rel : Express.release)
    (p q1 lit1 q2 lit2 : string) :
  In (q1, lit1) (literal_mapping v) ->
  In (q2, lit2) (literal_mapping v) ->
  Express.pathRegexp rel default_settings q1 p = true ->
  Express.pathRegexp rel default_settings q2 p = true ->
  q1 = q2 /\ lit1 = lit2.
Proof. exact (routes_disjoint v rel p q1 lit1 q2 lit2). Qed.

Lemma mapped_paths_do_not_overlap_witness :
  "/intro" = "/intro" /\ "Hello I am anuj!" = "Hello I am anuj!".
Proof.
  apply (mapped_paths_do_not_overlap VariantA Express.Express4 "/Intro/"
           "/intro" "Hello I am anuj!" "/intro" "Hello I am anuj!").
  - simpl. right. left. reflexivity.
  - simpl. right. left. reflexivity.
  - vm_compute. reflexivity.
  - vm_compute. reflexivity.
Defined.

(** X4: HEAD mirrors GET on every path, mapped or not, for the same
    request headers: the same status and the same headers, with an
    empty body.  [Content-Length] is the same too except on a 404,
    where it is the length of a page that names the method. *)
Theorem head_mirrors_get (v : variant) (rel : Express.release)
    (p : string) (hs : list (string * string)) :
  Express.statusCode (respond v rel Node.HEAD p hs)
    = Express.statusCode (respond v rel Node.GET p hs) /\
  Express.headers (respond v rel Node.HEAD p hs)
    = Express.headers (respond v rel Node.GET p hs) /\
  Express.body (respond v rel Node.HEAD p hs) = Express.Chunk "" /\
  (Express.contentLength (respond v rel Node.HEAD p hs)
     = Express.contentLength (respond v rel Node.GET p hs) \/
   Express.statusCode (respond v rel Node.GET p hs) = 404%N /\
   Express.contentLength (respond v rel Node.HEAD p hs)
     = Some (Express.LengthOf (Express.NotFoundDocument Node.HEAD p)) /\
   Express.contentLength (respond v rel Node.GET p hs)
     = Some (Express.LengthOf (Express.NotFoundDocument Node.GET p))).
Proof.
  rewrite !respond_table. cbv zeta.
  destruct (find _ _) as [[q lit] | ].
  - change (Node.method_eqb Node.HEAD Node.GET
            || Node.method_eqb Node.HEAD Node.HEAD) with true.
    change (Node.method_eqb Node.GET Node.GET
            || Node.method_eqb Node.GET Node.HEAD) with true.
    cbv iota. rewrite !res_send_initial.
    cbn [Express.method Express.req_headers].
    change (Node.method_eqb Node.HEAD Node.GET
            || Node.method_eqb Node.HEAD Node.HEAD) with true.
    change (Node.method_eqb Node.GET Node.GET
            || Node.method_eqb Node.GET Node.HEAD) with true.
    change (Node.method_eqb Node.HEAD Node.HEAD) with true.
    cbn [andb].
    destruct (Express.fresh rel hs (Some (Express.generateETag lit)));
      repeat split; left; reflexivity.
  - repeat split. right. repeat split.
Qed.

(** X5: a method other than GET, HEAD, OPTIONS and CONNECT is answered
    404 on every path, mapped or not, with the page of the final
    handler for that method and path: the scripts register no route
    for it.  A CONNECT request gets no answer. *)
Theorem unrouted_method_is_404 (v : variant) (rel : Express.release)
    (m : Node.method) (p : string) (hs : list (string * string)) :
  m <> Node.GET -> m <> Node.HEAD -> m <> Node.OPTIONS ->
  m <> Node.CONNECT ->
  answer v rel m p hs =
    Some {| Express.statusCode := 404;
            Express.headers :=
              [("X-Powered-By", "Express");
               ("Content-Security-Policy", "default-src 'none'");
               ("X-Content-Type-Options", "nosniff");
               ("Content-Type", "text/html; charset=utf-8")];
            Express.contentLength :=
              Some (Express.LengthOf (Express.NotFoundDocument m p));
            Express.body := Express.NotFoundDocument m p |} /\
  answer v rel Node.CONNECT p hs = None.
Proof.
  intros HG HH HO HC. split; [ | reflexivity ].
  unfold answer.
  destruct m; try congruence;
    cbn [Node.emits_request Node.method_eqb Node.method_name String.eqb
         Ascii.eqb Bool.eqb negb];
    rewrite respond_table; cbv zeta;
    destruct (find _ _) as [[q lit] | ]; reflexivity.
Qed.

Lemma unrouted_method_is_404_witness :
  answer VariantA Express.Express5 Node.DELETE "/about" [] =
    Some {| Express.statusCode := 404;
            Express.headers :=
              [("X-Powered-By", "Express");
               ("Content-Security-Policy", "default-src 'none'");
               ("X-Content-Type-Options", "nosniff");
               ("Content-Type", "text/html; charset=utf-8")];
            Express.contentLength :=
              Some (Express.LengthOf
                      (Express.NotFoundDocument Node.DELETE "/about"));
            Express.body := Express.NotFoundDocument Node.DELETE "/about" |}
  /\
  answer VariantA Express.Express5 Node.CONNECT "/about" [] = None.
Proof.
  apply (unrouted_method_is_404 VariantA Express.Express5 Node.DELETE
           "/about" []); discriminate.
Defined.

(** X6: OPTIONS on a path that matches a mapped path is answered 200
    with the methods the route allows, GET and HEAD, in the [Allow]
    header and in the body (joined with a comma by release 4, with a
    comma and a space by release 5), whatever the request headers. *)
Theorem options_lists_get_and_head (v : variant) (rel : Express.release)
    (p q lit : string) (hs : list (string * string)) :
  In (q, lit) (literal_mapping v) ->
  Express.pathRegexp rel default_settings q p = true ->
  let allow := match rel with
               | Express.Express4 => "GET,HEAD"
               | Express.Express5 => "GET, HEAD"
               end in
  Express.statusCode (respond v rel Node.OPTIONS p hs) = 200%N /\
  Express.getHeader "Allow"
    (Express.headers (respond v rel Node.OPTIONS p hs)) = Some allow /\
  Express.body (respond v rel Node.OPTIONS p hs) = Express.Chunk allow.
Proof.
  intros Hin Hm. rewrite respond_table. cbv zeta.
  rewrite (find_matching v rel p q lit Hin Hm).
  destruct rel; vm_compute; repeat split.
Qed.

Lemma options_lists_get_and_head_witness :
  Express.statusCode (respond VariantA Express.Express4 Node.OPTIONS "/" [])
    = 200%N /\
  Express.getHeader "Allow"
    (Express.headers (respond VariantA Express.Express4 Node.OPTIONS "/" []))
    = Some "GET,HEAD" /\
  Express.body (respond VariantA Express.Express4 Node.OPTIONS "/" [])
    = Express.Chunk "GET,HEAD".
Proof.
  apply (options_lists_get_and_head VariantA Express.Express4
           "/" "/" "Hello from Express!" []).
  - simpl. left. reflexivity.
  - vm_compute. reflexivity.
Defined.

(** X7: a path that is not empty and differs, even without regard to
    case, from every mapped path and from every mapped path followed
    by one slash is answered 404 with the html content type for every
    method that is answered at all, not only for GET; the body is the
    page of the final handler, or empty for HEAD. *)
Theorem unmatched_path_is_404 (v : variant) (rel : Express.release)
    (m : Node.method) (p : string) (hs : list (string * string)) :
  m <> Node.CONNECT ->
  p <> "" ->
  (forall q lit, In (q, lit) (literal_mapping v) ->
                 Js.upper p <> Js.upper q /\
                 Js.upper p <> Js.upper (q ++ "/")) ->
  answer v rel m p hs = Some (respond v rel m p hs) /\
  Express.statusCode (respond v rel m p hs) = 404%N /\
  Express.body (respond v rel m p hs)
    = (if Node.method_eqb m Node.HEAD then Express.Chunk ""
       else Express.NotFoundDocument m p) /\
  content_type (respond v rel m p hs) = Some "text/html; charset=utf-8".
Proof.
  intros Hc Hp H. split.
  - unfold answer, Node.emits_request.
    destruct (Node.method_eqb m Node.CONNECT) eqn:E; [ | reflexivity ].
    apply method_eqb_eq in E. contradiction.
  - rewrite unmatched.
    + repeat split; reflexivity.
    + intros q lit Hin. destruct (H q lit Hin) as [H1 H2].
      exact (no_match_of_upper v rel p q lit Hp Hin H1 H2).
Qed.

Lemma unmatched_path_is_404_witness :
  answer VariantB Express.Express4 Node.OPTIONS "/about" []
    = Some (respond VariantB Express.Express4 Node.OPTIONS "/about" []) /\
  Express.statusCode
    (respond VariantB Express.Express4 Node.OPTIONS "/about" []) = 404%N /\
  Express.body (respond VariantB Express.Express4 Node.OPTIONS "/about" [])
    = (if Node.method_eqb Node.OPTIONS Node.HEAD then Express.Chunk ""
       else Express.NotFoundDocument Node.OPTIONS "/about") /\
  content_type (respond VariantB Express.Express4 Node.OPTIONS "/about" [])
    = Some "text/html; charset=utf-8".
Proof.
  apply (unmatched_path_is_404 VariantB Express.Express4 Node.OPTIONS
           "/about" []).
  - discriminate.
  - discriminate.
  - intros q lit H. simpl in H.
    repeat (destruct H as [H | H];
            [ injection H as <- <-; split; intros E; vm_compute in E;
              discriminate E | ]).
    destruct H.
Defined.





(** X9: with release 4 of the framework the process after the bind is
    fully determined by its outcome: bound, it listens and has written
    the startup message once; not bound, it has written nothing and
    the error is thrown, as the scripts register no error listener. *)
Theorem run_under_release_4 (v : variant) (env : Node.environment)
    (o : Node.bind_outcome) :
  run v Express.Express4 env o =
  match o with
  | Node.Bound =>
      {| Node.stdout := [startup_message];
         Node.listening := true;
         Node.uncaught := false |}
  | Node.BindError _ =>
      {| Node.stdout := [];
         Node.listening := false;
         Node.uncaught := true |}
  end.
Proof. destruct v, o; reflexivity. Qed.

(** X10: with release 5 the listen callback runs on either outcome:
    the startup message is written once whether or not the bind
    succeeded, and a failed bind is not thrown, because the callback
    takes the error and ignores it. *)
Theorem run_under_release_5 (v : variant) (env : Node.environment)
    (o : Node.bind_outcome) :
  run v Express.Express5 env o =
  {| Node.stdout := [startup_message];
     Node.listening := match o with
                       | Node.Bound => true
                       | Node.BindError _ => false
                       end;
     Node.uncaught := false |}.
Proof. destruct v, o; reflexivity. Qed.



(** X12: [Cache-Control: no-cache] forces the full answer: a GET on a
    mapped path that carries it is answered 200 with the literal,
    whatever [If-None-Match] it also carries. *)
Theorem no_cache_forces_full_answer (v : variant) (rel : Express.release)
    (p lit : string) (hs : list (string * string)) :
  In (p, lit) (literal_mapping v) ->
  Express.lookup "cache-control" hs = Some "no-cache" ->
  Express.statusCode (respond v rel Node.GET p hs) = 200%N /\
  Express.body (respond v rel Node.GET p hs) = Express.Chunk lit.
Proof.
  intros Hin Hcc.
  rewrite (get_matched v rel p p lit hs Hin (self_match v rel p lit Hin)).
  replace (Express.fresh rel hs (Some (Express.generateETag lit)))
    with false.
  - split; reflexivity.
  - unfold Express.fresh. rewrite Hcc.
    destruct (negb (Express.truthy (Express.lookup "if-modified-since" hs))
              && negb (Express.truthy (Express.lookup "if-none-match" hs)));
      reflexivity.
Qed.

Lemma no_cache_forces_full_answer_witness :
  Express.statusCode
    (respond VariantB Express.Express5 Node.GET "/section"
       [("if-none-match", "*"); ("cache-control", "no-cache")]) = 200%N /\
  Express.body
    (respond VariantB Express.Express5 Node.GET "/section"
       [("if-none-match", "*"); ("cache-control", "no-cache")])
    = Express.Chunk "sexction".
Proof.
  apply (no_cache_forces_full_answer VariantB Express.Express5
           "/section" "sexction"
           [("if-none-match", "*"); ("cache-control", "no-cache")]).
  - simpl. right. right. left. reflexivity.
  - reflexivity.
Defined.
